(** * AlertDialog: a shallow embedding of
      packages/react/alert-dialog/src/AlertDialog.tsx

    The component file is prop plumbing over a dialog primitive.  The
    embedding keeps the shapes the TypeScript has:

    - a props object is a finite map from property names to JavaScript
      values, so that JSX attribute order, object spread and rest
      destructuring are the map operations they are in the source;
    - an element is a value carrying its component and its props (children
      included, under the key [children]);
    - an event handler is a function on the part of the world it can touch:
      the event's default-prevented flag, the ref cells and the calls made to
      [focus];
    - the effect of the dev-warning component runs in a small completion
      monad over the console.

    React keeps [ref] beside the props; the embedding files it under the
    reserved name [ref], which every component here writes after its
    spread. *)

From stdpp Require Import gmap strings list fin_maps pretty.

Local Open Scope string_scope.

(* ------------------------------------------------------------------------- *)
(** ** The DOM the components talk to *)
(* ------------------------------------------------------------------------- *)

Module Dom.

(** A rendered element, as far as this file looks at one: its tag and its
    [id] attribute. *)
Record HTMLElement := mkElement {
  tagName : string;
  idAttr  : option string
}.

#[global] Instance HTMLElement_eq_dec : EqDecision HTMLElement.
Proof. solve_decision. Defined.

(** The argument of [element.focus(options)]. *)
Record FocusOptions := mkFocusOptions { preventScroll : bool }.

(** The rendered document, in tree order. *)
Definition Document := list HTMLElement.

(** [document.getElementById(id)]: the first element in tree order whose id
    is [id]; an element never has the empty string as its id. *)
Definition getElementById (doc : Document) (id : string) : option HTMLElement :=
  if decide (id = "") then None
  else List.find (fun e => bool_decide (idAttr e = Some id)) doc.

End Dom.

(* ------------------------------------------------------------------------- *)
(** ** JavaScript values and the operators the file uses *)
(* ------------------------------------------------------------------------- *)

Module JS.

(** A ref cell created by [React.useRef] is a location in the store. *)
Definition loc := positive.

(** What an event handler can read and change. *)
Record World := mkWorld {
  defaultPrevented : bool;
  refs             : gmap loc Dom.HTMLElement;
  focusLog         : list (Dom.HTMLElement * Dom.FocusOptions)
}.

Definition Handler := World -> World.

(** The components of the file and of the packages it renders. *)
Inductive component :=
| DialogPrimitive_Root
| DialogPrimitive_Content
| DialogPrimitive_Close
| Primitive
| AlertDialogProvider
| AlertDialogContentProvider
| AccessibilityDevWarnings_
| Slottable.

#[global] Instance component_eq_dec : EqDecision component.
Proof. solve_decision. Defined.

#[warnings="-register-all"]
Inductive value :=
| VUndefined
| VNull
| VBool (b : bool)
| VNumber (n : Z)
| VString (s : string)
| VHandler (h : Handler)
| VRef (l : loc)
| VDom (e : Dom.HTMLElement)
| VArray (items : list value)
| VElement (type : component) (props : gmap string value).

(** ToBoolean. *)
Definition truthy (v : value) : bool :=
  match v with
  | VUndefined | VNull => false
  | VBool b => b
  | VNumber n => negb (n =? 0)%Z
  | VString s => negb (String.eqb s "")
  | VHandler _ | VRef _ | VDom _ | VArray _ | VElement _ _ => true
  end.

(** [a || b], [a && b], [c ? a : b] and [a ?? b].  Every operand in the
    file is free of effects, so the short circuit is not observable. *)
Definition or (a b : value) : value := if truthy a then a else b.
Definition and (a b : value) : value := if truthy a then b else a.
Definition cond (c a b : value) : value := if truthy c then a else b.
Definition nullish (a b : value) : value :=
  match a with
  | VUndefined | VNull => b
  | _ => a
  end.

(** [v === 'literal']. *)
Definition strict_eq_string (v : value) (lit : string) : bool :=
  match v with
  | VString s => String.eqb s lit
  | _ => false
  end.

Definition is_undefined (v : value) : bool :=
  match v with
  | VUndefined => true
  | _ => false
  end.

(** [obj.key]: a missing property reads as [undefined]. *)
Definition get (obj : gmap string value) (key : string) : value :=
  default VUndefined (obj !! key).

(** [{ ...acc, key: v }] and [{ ...acc, ...obj }]: the later entry wins. *)
Definition set (key : string) (v : value) (acc : gmap string value)
  : gmap string value := <[key := v]> acc.
Definition spread (obj acc : gmap string value) : gmap string value :=
  obj ∪ acc.

(** [const { k1: _, ..., kn: _, ...rest } = obj]. *)
Definition rest (keys : list string) (obj : gmap string value)
  : gmap string value := foldr delete obj keys.

(** [element.props.key], [undefined] on anything that is not an element. *)
Definition prop (e : value) (key : string) : value :=
  match e with
  | VElement _ props => get props key
  | _ => VUndefined
  end.

Definition element_type (e : value) : option component :=
  match e with
  | VElement c _ => Some c
  | _ => None
  end.

(** An attribute is set on the rendered element when its value is not
    [undefined]. *)
Definition is_set (v : value) : bool := negb (is_undefined v).

(** [f?.(event)]: the call is skipped when [f] is not a function. *)
Definition optional_call (f : value) : Handler :=
  match f with
  | VHandler h => h
  | _ => fun w => w
  end.

(** [event.preventDefault()] and [el.focus(options)]. *)
Definition preventDefault : Handler := fun w =>
  {| defaultPrevented := true; refs := refs w; focusLog := focusLog w |}.
Definition focus (el : Dom.HTMLElement) (o : Dom.FocusOptions) : Handler :=
  fun w =>
    {| defaultPrevented := defaultPrevented w;
       refs := refs w;
       focusLog := focusLog w ++ [(el, o)] |}.

End JS.

Import JS.

(* ------------------------------------------------------------------------- *)
(** ** JSX *)
(* ------------------------------------------------------------------------- *)

(** The attributes of a JSX tag, in source order: [name={v}] or [{...obj}]. *)
Inductive jsx_attr :=
| Attr (name : string) (v : value)
| Spread (obj : gmap string value).

(** The props object a JSX tag builds: attributes are applied left to right,
    so a later one replaces an earlier one of the same name. *)
Definition jsx_props (attrs : list jsx_attr) : gmap string value :=
  foldl (fun acc a =>
           match a with
           | Attr name v => JS.set name v acc
           | Spread obj => JS.spread obj acc
           end) ∅ attrs.

(** [<C attrs>children</C>]; a tag without children leaves [props.children]
    to its attributes. *)
Definition jsx (c : component) (attrs : list jsx_attr) (children : option value)
  : value :=
  VElement c
    match children with
    | Some ch => JS.set "children" ch (jsx_props attrs)
    | None => jsx_props attrs
    end.

(* ------------------------------------------------------------------------- *)
(** ** Helpers of the sibling packages *)
(* ------------------------------------------------------------------------- *)

(** Modelled from the spec: [composeEventHandlers] of [@radix-ui/primitive]
    is not among the sources.  The composition invokes the user handler
    first, checks the prevented flag on the event object, and only then
    invokes the default handler if not prevented.  A caller that supplies no
    handler passes [undefined]. *)
Definition composeEventHandlers (originalEventHandler : value)
    (ourEventHandler : Handler) : Handler :=
  fun w =>
    let w1 := JS.optional_call originalEventHandler w in
    if defaultPrevented w1 then w1 else ourEventHandler w1.

(** Modelled from the spec: [useId] of [@radix-ui/react-id] is not among the
    sources.  It is a stable per-mount unique-id mechanism: the identifier is
    drawn once, when the instance mounts, and the hook slot returns the same
    string on every later render.  [slot] is the hook's memory ([None] while
    mounting) and [next] the generator's counter. *)
Definition useId (slot : option string) (next : N) : string * N :=
  match slot with
  | Some id => (id, next)
  | None => ("radix-id-" +:+ pretty next, N.succ next)
  end.

(** Modelled from the spec: [useComposedRefs] of
    [@radix-ui/react-compose-refs] is not among the sources.  Every ref of
    the composition receives the element handle; the composed ref is kept as
    the list of the refs it forwards to. *)
Definition useComposedRefs (rs : list value) : value := VArray rs.

(** React attaching a mounted element to a ref.  Only ref objects are
    written; a missing ref is skipped. *)
Fixpoint attach_ref (r : value) (el : Dom.HTMLElement) (w : World) : World :=
  match r with
  | VRef l =>
      {| defaultPrevented := defaultPrevented w;
         refs := <[l := el]> (refs w);
         focusLog := focusLog w |}
  | VArray rs =>
      (fix go (rs : list value) (w : World) : World :=
         match rs with
         | [] => w
         | r :: rs' => go rs' (attach_ref r el w)
         end) rs w
  | _ => w
  end.

(* ------------------------------------------------------------------------- *)
(** ** AlertDialog *)
(* ------------------------------------------------------------------------- *)

Definition ROOT_NAME : string := "AlertDialog".

Record AlertDialogContextValue := mkContext {
  descriptionId : string;
  titleId       : string
}.

(** The hook memory of one mounted [AlertDialog]: the two [useId] slots, in
    call order. *)
Record AlertDialogHooks := mkHooks {
  slot_descriptionId : string;
  slot_titleId       : string
}.

(** One render of [AlertDialog].  [hooks] is [None] on the mounting render
    and the instance's memory afterwards; the render returns the element,
    the memory and the id counter. *)
Definition AlertDialog (props : gmap string value)
    (hooks : option AlertDialogHooks) (next : N)
  : value * AlertDialogHooks * N :=
  let '(descriptionId, next1) := useId (slot_descriptionId <$> hooks) next in
  let '(titleId, next2) := useId (slot_titleId <$> hooks) next1 in
  (jsx AlertDialogProvider
     [Attr "descriptionId" (VString descriptionId);
      Attr "titleId" (VString titleId)]
     (Some (jsx DialogPrimitive_Root [Spread props] None)),
   {| slot_descriptionId := descriptionId; slot_titleId := titleId |},
   next2).

(** [useAlertDialogContext]: the value the enclosing provider carries. *)
Definition useAlertDialogContext (provider : value)
  : option AlertDialogContextValue :=
  match provider with
  | VElement AlertDialogProvider props =>
      match JS.get props "descriptionId", JS.get props "titleId" with
      | VString d, VString t => Some {| descriptionId := d; titleId := t |}
      | _, _ => None
      end
  | _ => None
  end.

(** The renders of one instance in sequence, one per element of [renders],
    the hook memory threaded from each to the next: the context value every
    render provides. *)
Fixpoint render_ids (hooks : option AlertDialogHooks) (next : N)
    (renders : list (gmap string value))
  : list (option AlertDialogContextValue) :=
  match renders with
  | [] => []
  | props :: renders' =>
      let '(out, hooks', next') := AlertDialog props hooks next in
      useAlertDialogContext out :: render_ids (Some hooks') next' renders'
  end.

(* ------------------------------------------------------------------------- *)
(** ** AlertDialogContent *)
(* ------------------------------------------------------------------------- *)

Definition CONTENT_NAME : string := "AlertDialogContent".

Record AlertDialogContentContextValue := mkContentContext {
  cancelRef : loc
}.

(** The handler the content registers behind the caller's:
    [(event) => { event.preventDefault();
                  cancelRef.current?.focus({ preventScroll: true }); }]. *)
Definition focusCancel (cancelRef : loc) : Handler := fun w =>
  let w1 := preventDefault w in
  match refs w1 !! cancelRef with
  | Some el => focus el {| Dom.preventScroll := true |} w1
  | None => w1
  end.

(** One render of [AlertDialogContent].  [NODE_ENV] is
    [process.env.NODE_ENV], [ctx] the identity context and [cancelRef] the
    cell [React.useRef(null)] gave this instance. *)
Definition AlertDialogContent (NODE_ENV : value) (ctx : AlertDialogContextValue)
    (cancelRef : loc) (props : gmap string value) (forwardedRef : value)
  : value :=
  let ariaLabel := JS.get props "aria-label" in
  let ariaLabelledBy := JS.get props "aria-labelledby" in
  let ariaDescribedBy := JS.get props "aria-describedby" in
  let children := JS.get props "children" in
  let dialogContentProps :=
    JS.rest ["aria-label"; "aria-labelledby"; "aria-describedby"; "children"]
      props in
  jsx DialogPrimitive_Content
    [Attr "role" (VString "alertdialog");
     Attr "aria-describedby"
       (JS.or ariaDescribedBy (VString (descriptionId ctx)));
     Attr "aria-labelledby"
       (JS.cond ariaLabel VUndefined
          (JS.or ariaLabelledBy (VString (titleId ctx))));
     Attr "aria-label" (JS.or ariaLabel VUndefined);
     Spread dialogContentProps;
     Attr "ref" forwardedRef;
     Attr "onOpenAutoFocus"
       (VHandler
          (composeEventHandlers (JS.get dialogContentProps "onOpenAutoFocus")
             (focusCancel cancelRef)))]
    (Some
       (jsx AlertDialogContentProvider [Attr "cancelRef" (VRef cancelRef)]
          (Some
             (VArray
                [JS.and (VBool (JS.strict_eq_string NODE_ENV "development"))
                   (jsx AccessibilityDevWarnings_
                      [Attr "ariaLabel" ariaLabel;
                       Attr "ariaLabelledBy" ariaLabelledBy;
                       Attr "ariaDescribedBy" ariaDescribedBy]
                      None);
                 jsx Slottable [] (Some children)])))).

(** The handler the rendered content hands to the primitive. *)
Definition onOpenAutoFocus (content : value) : Handler :=
  JS.optional_call (JS.prop content "onOpenAutoFocus").

(** The children of the content-scoped provider, as React sees them. *)
Definition provider_children (content : value) : list value :=
  match JS.prop (JS.prop content "children") "children" with
  | VArray items => items
  | _ => []
  end.

(** Whether the render mounts the dev-warning component: [false], [null] and
    [undefined] children mount nothing. *)
Definition mounts_dev_warnings (content : value) : bool :=
  existsb
    (fun child =>
       bool_decide (JS.element_type child = Some AccessibilityDevWarnings_))
    (provider_children content).

(* ------------------------------------------------------------------------- *)
(** ** AlertDialogTitle, AlertDialogDescription, AlertDialogCancel *)
(* ------------------------------------------------------------------------- *)

Definition TITLE_NAME : string := "AlertDialogTitle".
Definition TITLE_DEFAULT_TAG : string := "h2".

(** [const { key = dflt } = props]: the default applies to [undefined]. *)
Definition with_default (v dflt : value) : value :=
  if JS.is_undefined v then dflt else v.

Definition AlertDialogTitle (ctx : AlertDialogContextValue)
    (props : gmap string value) (forwardedRef : value) : value :=
  let as_ := with_default (JS.get props "as") (VString TITLE_DEFAULT_TAG) in
  let titleProps := JS.rest ["as"] props in
  jsx Primitive
    [Attr "id" (VString (titleId ctx));
     Spread titleProps;
     Attr "as" as_;
     Attr "ref" forwardedRef]
    None.

Definition DESCRIPTION_NAME : string := "AlertDialogDescription".
Definition DESCRIPTION_DEFAULT_TAG : string := "p".

Definition AlertDialogDescription (ctx : AlertDialogContextValue)
    (props : gmap string value) (forwardedRef : value) : value :=
  let as_ :=
    with_default (JS.get props "as") (VString DESCRIPTION_DEFAULT_TAG) in
  let descriptionProps := JS.rest ["as"] props in
  jsx Primitive
    [Attr "id" (VString (descriptionId ctx));
     Spread descriptionProps;
     Attr "as" as_;
     Attr "ref" forwardedRef]
    None.

Definition CANCEL_NAME : string := "AlertDialogCancel".

Definition AlertDialogCancel (cctx : AlertDialogContentContextValue)
    (props : gmap string value) (forwardedRef : value) : value :=
  let ref := useComposedRefs [forwardedRef; VRef (cancelRef cctx)] in
  jsx DialogPrimitive_Close [Spread props; Attr "ref" ref] None.

(** The Cancel control mounting as the element [el]: React attaches [el] to
    the control's ref. *)
Definition mount_cancel (cancel : value) (el : Dom.HTMLElement) : Handler :=
  attach_ref (JS.prop cancel "ref") el.

(* ------------------------------------------------------------------------- *)
(** ** AccessibilityDevWarnings *)
(* ------------------------------------------------------------------------- *)

Definition LF : string := String (Ascii.ascii_of_nat 10) "".

Definition LABEL_WARNING : string :=
  CONTENT_NAME +:+ " requires a label for the component to be accessible for screen reader users."
  +:+ LF +:+ LF +:+
  "You can label the " +:+ CONTENT_NAME +:+ " by passing a " +:+ TITLE_NAME +:+ " component as a child, which also benefits sighted users by adding visible context to the dialog."
  +:+ LF +:+ LF +:+
  "Alternatively, you can use your own component as a title by assigning it an `id` and passing the same value to the `aria-labelledby` prop in " +:+ CONTENT_NAME +:+ ". If the label is confusing or duplicative for sighted users, you can also pass a label directly by using the `aria-label` prop."
  +:+ LF +:+ LF +:+
  "For more information, see https://LINK-TO-DOCS.com".

Definition DESC_WARNING : string :=
  CONTENT_NAME +:+ " requires a description for the component to be accessible for screen reader users."
  +:+ LF +:+ LF +:+
  "You can add a description to the " +:+ CONTENT_NAME +:+ " by passing a " +:+ DESCRIPTION_NAME +:+ " component as a child, which also benefits sighted users by adding visible context to the dialog."
  +:+ LF +:+ LF +:+
  "Alternatively, you can use your own component as a description by assigning it an `id` and passing the same value to the `aria-describedby` prop in " +:+ CONTENT_NAME +:+ ". If the description is confusing or duplicative for sighted users, you can use the `@radix-ui/react-visually-hidden` primitive as a wrapper around your description component."
  +:+ LF +:+ LF +:+
  "For more information, see https://LINK-TO-DOCS.com".

(** The props of the component, as its type declares them. *)
Record AccessibilityDevWarningsProps := mkDevProps {
  ariaLabel       : option string;
  ariaLabelledBy  : option string;
  ariaDescribedBy : option string
}.

(** An optional string prop as the value the code reads. *)
Definition optional (o : option string) : value :=
  match o with
  | Some s => VString s
  | None => VUndefined
  end.

(** [document.getElementById(id)] as a value: the element or [null]. *)
Definition document_getElementById (document : Dom.Document) (id : value)
  : value :=
  match id with
  | VString s =>
      match Dom.getElementById document s with
      | Some e => VDom e
      | None => VNull
      end
  | _ => VNull
  end.

(** How a statement ends: normally, or by throwing. *)
Inductive completion (A : Type) :=
| Normal (a : A)
| Throw (error : string).
Arguments Normal {A} a.
Arguments Throw {A} error.

(** Effects over the console, the list of the messages warned so far. *)
Definition Eff (A : Type) : Type := list string -> completion A * list string.

#[global] Instance Eff_ret : MRet Eff :=
  fun A (a : A) console => (Normal a, console).

#[global] Instance Eff_bind : MBind Eff :=
  fun A B (k : A -> Eff B) (m : Eff A) console =>
    match m console with
    | (Normal a, console') => k a console'
    | (Throw e, console') => (Throw e, console')
    end.

Definition console_warn (message : string) : Eff unit :=
  fun console => (Normal tt, (console ++ [message])%list).

(** [if (c) { body }]. *)
Definition when (c : bool) (body : Eff unit) : Eff unit :=
  if c then body else mret tt.

(** The body of the component's [useEffect], run once per mount (and again
    when a dependency changes). *)
Definition AccessibilityDevWarnings_effect (context : AlertDialogContextValue)
    (props : AccessibilityDevWarningsProps) (document : Dom.Document)
  : Eff unit :=
  let ariaLabel := optional (ariaLabel props) in
  let ariaLabelledBy := optional (ariaLabelledBy props) in
  let ariaDescribedBy := optional (ariaDescribedBy props) in
  let titleId := VString (titleId context) in
  let descriptionId := VString (descriptionId context) in
  let hasLabel :=
    JS.truthy
      (JS.or
         (JS.or ariaLabel
            (JS.and ariaLabelledBy
               (document_getElementById document ariaLabelledBy)))
         (JS.and titleId (document_getElementById document titleId))) in
  when (negb hasLabel) (console_warn LABEL_WARNING) ;;
  let hasDescription :=
    JS.truthy
      (JS.or
         (JS.and ariaDescribedBy
            (document_getElementById document ariaDescribedBy))
         (JS.and descriptionId
            (document_getElementById document descriptionId))) in
  (when (negb hasDescription) (console_warn DESC_WARNING) : Eff unit).

(** The component renders nothing. *)
Definition AccessibilityDevWarnings (props : AccessibilityDevWarningsProps)
  : value := VNull.

(** Whether [needle] occurs in [text]. *)
Fixpoint mentions (needle text : string) : bool :=
  String.prefix needle text ||
  match text with
  | EmptyString => false
  | String _ text' => mentions needle text'
  end.

Definition count_mentioning (needle : string) (messages : list string) : nat :=
  length (filter (fun m => mentions needle m = true) messages).

(* ------------------------------------------------------------------------- *)
(** ** The specification's formulas, for comparison *)
(* ------------------------------------------------------------------------- *)

(** The specification words the attributes of the content with the nullish
    operator:
    [effectiveLabelledBy = ariaLabel ? undefined : (ariaLabelledBy ?? titleId)],
    [effectiveLabel = ariaLabel ?? undefined],
    [effectiveDescribedBy = ariaDescribedBy ?? descriptionId]. *)
Definition spec_effectiveLabelledBy (ctx : AlertDialogContextValue)
    (props : gmap string value) : value :=
  JS.cond (JS.get props "aria-label") VUndefined
    (JS.nullish (JS.get props "aria-labelledby") (VString (titleId ctx))).

Definition spec_effectiveLabel (props : gmap string value) : value :=
  JS.nullish (JS.get props "aria-label") VUndefined.

Definition spec_effectiveDescribedBy (ctx : AlertDialogContextValue)
    (props : gmap string value) : value :=
  JS.nullish (JS.get props "aria-describedby") (VString (descriptionId ctx)).

(** A build is a production build when [NODE_ENV] is ['production']. *)
Definition production_build (NODE_ENV : value) : bool :=
  JS.strict_eq_string NODE_ENV "production".

(** The specification's reading of the dev-warning check: an accessible name
    resolves when an explicit label text is given, or the labelledby id or
    the title id names a rendered element; a description resolves when the
    describedby id or the description id names a rendered element. *)
Definition names_element (document : Dom.Document) (id : option string)
  : bool :=
  match id with
  | Some s => bool_decide (is_Some (Dom.getElementById document s))
  | None => false
  end.

Definition has_text (label : option string) : bool :=
  match label with
  | Some s => negb (String.eqb s "")
  | None => false
  end.

Definition name_resolves (context : AlertDialogContextValue)
    (props : AccessibilityDevWarningsProps) (document : Dom.Document) : bool :=
  has_text (ariaLabel props)
  || names_element document (ariaLabelledBy props)
  || names_element document (Some (titleId context)).

Definition description_resolves (context : AlertDialogContextValue)
    (props : AccessibilityDevWarningsProps) (document : Dom.Document) : bool :=
  names_element document (ariaDescribedBy props)
  || names_element document (Some (descriptionId context)).

(* ------------------------------------------------------------------------- *)
(** ** A concrete dialog *)
(* ------------------------------------------------------------------------- *)

Module Example.

(** The ids the first dialog of a page is given. *)
Definition ids : AlertDialogContextValue :=
  {| descriptionId := "radix-id-0"; titleId := "radix-id-1" |}.

Definition cancelSlot : loc := 1%positive.

Definition cancel : Dom.HTMLElement := Dom.mkElement "button" (Some "cancel").
Definition confirm : Dom.HTMLElement := Dom.mkElement "button" (Some "confirm").

(** The world at an open transition: a fresh event, nothing focused yet;
    without a Cancel control, and with one mounted as [cancel]. *)
Definition opened : World :=
  {| defaultPrevented := false; refs := ∅; focusLog := [] |}.

Definition opened_with_cancel : World :=
  mount_cancel
    (AlertDialogCancel {| cancelRef := cancelSlot |} ∅ VNull)
    cancel opened.

(** Two caller handlers: one focuses the confirm button, the other also
    prevents the default. *)
Definition focusConfirm : Handler :=
  focus confirm {| Dom.preventScroll := false |}.

Definition focusConfirm_preventDefault : Handler :=
  fun w => preventDefault (focusConfirm w).

Definition handler_props (h : Handler) : gmap string value :=
  {[ "onOpenAutoFocus" := VHandler h ]}.

Definition id_props (id : string) : gmap string value :=
  {[ "id" := VString id ]}.

Definition title_props : gmap string value :=
  {[ "as" := VString "h1"; "className" := VString "title" ]}.

End Example.

(* ------------------------------------------------------------------------- *)
(** ** The dev-warning component as React mounts and commits it *)
(* ------------------------------------------------------------------------- *)

(** A prop typed [string | undefined], read off a props object. *)
Definition as_optional (v : value) : option string :=
  match v with
  | VString s => Some s
  | _ => None
  end.

(** The dev-warning element among the children of the content-scoped
    provider, when the render mounts one. *)
Definition mounted_dev_warnings (content : value) : option value :=
  List.find
    (fun child =>
       bool_decide (JS.element_type child = Some AccessibilityDevWarnings_))
    (provider_children content).

(** The props React hands to the component function of that element. *)
Definition dev_warnings_props (e : value) : AccessibilityDevWarningsProps :=
  {| ariaLabel := as_optional (JS.prop e "ariaLabel");
     ariaLabelledBy := as_optional (JS.prop e "ariaLabelledBy");
     ariaDescribedBy := as_optional (JS.prop e "ariaDescribedBy") |}.

(** A consumer's props for the content: the three overrides, typed as the
    component declares them, over any other props. *)
Definition aria_overrides (o : AccessibilityDevWarningsProps)
    (others : gmap string value) : gmap string value :=
  JS.set "aria-label" (optional (ariaLabel o))
    (JS.set "aria-labelledby" (optional (ariaLabelledBy o))
       (JS.set "aria-describedby" (optional (ariaDescribedBy o)) others)).

(** What one run of the check adds to an empty console. *)
Definition emitted (context : AlertDialogContextValue)
    (props : AccessibilityDevWarningsProps) (document : Dom.Document)
  : list string :=
  (AccessibilityDevWarnings_effect context props document []).2.

(** Whether an attribute value is the id of a rendered element. *)
Definition names_rendered_element (document : Dom.Document) (attr : value)
  : bool :=
  JS.truthy (document_getElementById document attr).




(** The overrides of a content fed back from what it rendered: the props
    with the three attributes replaced by their rendered values. *)
Definition rendered_overrides (content : value) (props : gmap string value)
  : gmap string value :=
  JS.set "aria-label" (JS.prop content "aria-label")
    (JS.set "aria-labelledby" (JS.prop content "aria-labelledby")
       (JS.set "aria-describedby" (JS.prop content "aria-describedby") props)).

(* ------------------------------------------------------------------------- *)
(** ** A concrete page *)
(* ------------------------------------------------------------------------- *)

Module Page.

(** The open dialog of [Example] with its Title and Description rendered,
    and the same dialog with neither. *)
Definition title : Dom.HTMLElement := Dom.mkElement "h2" (Some "radix-id-1").
Definition description : Dom.HTMLElement :=
  Dom.mkElement "p" (Some "radix-id-0").

Definition complete : Dom.Document :=
  [title; description; Example.cancel; Example.confirm].

Definition bare : Dom.Document := [Example.cancel; Example.confirm].

(** A content without overrides, and one whose id overrides name nothing. *)
Definition no_overrides : AccessibilityDevWarningsProps :=
  {| ariaLabel := None; ariaLabelledBy := None; ariaDescribedBy := None |}.

Definition dangling : AccessibilityDevWarningsProps :=
  {| ariaLabel := None;
     ariaLabelledBy := Some "missing";
     ariaDescribedBy := Some "missing" |}.

Definition labelled : AccessibilityDevWarningsProps :=
  {| ariaLabel := Some "Delete the file?";
     ariaLabelledBy := None;
     ariaDescribedBy := None |}.

End Page.

(* ========================================================================= *)
(** * Properties *)
(* ========================================================================= *)

(* ------------------------------------------------------------------------- *)
(** ** Reading props objects *)
(* ------------------------------------------------------------------------- *)

Section JsObjects.
Implicit Types (obj acc : gmap string value) (key k : string).

Lemma lookup_rest_in keys obj k : k ∈ keys → JS.rest keys obj !! k = None.
Proof.
  unfold JS.rest. induction keys as [|key keys IH]; simpl.
  - intros H. by apply elem_of_nil in H.
  - intros [->|H]%elem_of_cons.
    + apply lookup_delete_eq.
    + destruct (decide (key = k)) as [->|Hne].
      * apply lookup_delete_eq.
      * rewrite lookup_delete_ne by done. by apply IH.
Qed.

Lemma lookup_rest_notin keys obj k :
  k ∉ keys → JS.rest keys obj !! k = obj !! k.
Proof.
  unfold JS.rest. induction keys as [|key keys IH]; simpl; [done|].
  intros [Hne Hnotin]%not_elem_of_cons.
  rewrite lookup_delete_ne by done. by apply IH.
Qed.

Lemma get_rest_notin keys obj k :
  k ∉ keys → JS.get (JS.rest keys obj) k = JS.get obj k.
Proof. intros. unfold JS.get. by rewrite lookup_rest_notin. Qed.

Lemma get_set_eq key v acc : JS.get (JS.set key v acc) key = v.
Proof. unfold JS.get, JS.set. by rewrite lookup_insert_eq. Qed.

Lemma get_set_ne key k v acc :
  key ≠ k → JS.get (JS.set key v acc) k = JS.get acc k.
Proof. intros. unfold JS.get, JS.set. by rewrite lookup_insert_ne. Qed.

Lemma get_spread obj acc k :
  JS.get (JS.spread obj acc) k =
  match obj !! k with
  | Some v => v
  | None => JS.get acc k
  end.
Proof.
  unfold JS.get, JS.spread. rewrite lookup_union.
  destruct (obj !! k), (acc !! k); done.
Qed.

End JsObjects.

(** Membership of a literal name in a literal list of names. *)
Ltac in_keys :=
  repeat (apply elem_of_cons; first [ left; reflexivity | right ]).
Ltac notin_keys :=
  repeat (apply not_elem_of_cons; split; [ discriminate | ]);
  apply not_elem_of_nil.

(** Reads a named prop off a JSX tag whose attribute names are literals. *)
Ltac read_props :=
  cbn [JS.prop jsx jsx_props foldl];
  repeat first
    [ rewrite get_set_eq
    | rewrite get_set_ne by (intros ?; discriminate)
    | rewrite get_spread ].

(* ------------------------------------------------------------------------- *)
(** ** The props AlertDialogContent hands to the primitive *)
(* ------------------------------------------------------------------------- *)

Section Content.
Variables (NODE_ENV : value) (ctx : AlertDialogContextValue) (cancelRef : loc).
Variables (props : gmap string value) (forwardedRef : value).

Let content := AlertDialogContent NODE_ENV ctx cancelRef props forwardedRef.

Lemma content_aria_label :
  JS.prop content "aria-label" = JS.or (JS.get props "aria-label") VUndefined.
Proof.
  unfold content, AlertDialogContent. read_props.
  by rewrite lookup_rest_in by in_keys.
Qed.

Lemma content_aria_labelledby :
  JS.prop content "aria-labelledby" =
  JS.cond (JS.get props "aria-label") VUndefined
    (JS.or (JS.get props "aria-labelledby") (VString (titleId ctx))).
Proof.
  unfold content, AlertDialogContent. read_props.
  by rewrite lookup_rest_in by in_keys.
Qed.

Lemma content_aria_describedby :
  JS.prop content "aria-describedby" =
  JS.or (JS.get props "aria-describedby") (VString (descriptionId ctx)).
Proof.
  unfold content, AlertDialogContent. read_props.
  by rewrite lookup_rest_in by in_keys.
Qed.

Lemma content_role :
  JS.prop content "role" = default (VString "alertdialog") (props !! "role").
Proof.
  unfold content, AlertDialogContent. read_props.
  rewrite lookup_rest_notin by notin_keys.
  by destruct (props !! "role").
Qed.

Lemma content_onOpenAutoFocus :
  onOpenAutoFocus content =
  composeEventHandlers (JS.get props "onOpenAutoFocus") (focusCancel cancelRef).
Proof.
  unfold onOpenAutoFocus, content, AlertDialogContent. read_props.
  by rewrite get_rest_notin by notin_keys.
Qed.

Lemma content_provider_children :
  provider_children content =
  [JS.and (VBool (JS.strict_eq_string NODE_ENV "development"))
     (jsx AccessibilityDevWarnings_
        [Attr "ariaLabel" (JS.get props "aria-label");
         Attr "ariaLabelledBy" (JS.get props "aria-labelledby");
         Attr "ariaDescribedBy" (JS.get props "aria-describedby")]
        None);
   jsx Slottable [] (Some (JS.get props "children"))].
Proof.
  unfold provider_children, content, AlertDialogContent. by read_props.
Qed.

End Content.

Lemma truthy_is_set v : JS.truthy v = true → JS.is_set v = true.
Proof. by destruct v. Qed.

(* ------------------------------------------------------------------------- *)
(** ** Accessible-naming attributes of the content *)
(* ------------------------------------------------------------------------- *)

(** C1, as the code has it: on every render the content's attributes are the
    formulas of the source, written with [||]:
    aria-labelledby = ariaLabel ? undefined : (ariaLabelledBy || titleId),
    aria-label = ariaLabel || undefined and
    aria-describedby = ariaDescribedBy || descriptionId.  A falsy override,
    the empty string among them, is treated as absent. *)
Theorem C1_content_aria_attributes
    (NODE_ENV : value) (ctx : AlertDialogContextValue) (cancelRef : loc)
    (props : gmap string value) (forwardedRef : value) :
  let content := AlertDialogContent NODE_ENV ctx cancelRef props forwardedRef in
  JS.prop content "aria-labelledby" =
    JS.cond (JS.get props "aria-label") VUndefined
      (JS.or (JS.get props "aria-labelledby") (VString (titleId ctx)))
  ∧ JS.prop content "aria-label" = JS.or (JS.get props "aria-label") VUndefined
  ∧ JS.prop content "aria-describedby" =
      JS.or (JS.get props "aria-describedby") (VString (descriptionId ctx)).
Proof.
  intros content. subst content. split; [|split].
  - apply content_aria_labelledby.
  - apply content_aria_label.
  - apply content_aria_describedby.
Qed.

(** C1 fails as stated: with the empty string as override the rendered
    aria-describedby and aria-labelledby are the generated ids and aria-label
    is undefined, where the formulas with [??] keep the empty string. *)
Lemma C1_empty_override_replaced :
  let props : gmap string value :=
    {[ "aria-label" := VString "";
       "aria-labelledby" := VString "";
       "aria-describedby" := VString "" ]} in
  let content :=
    AlertDialogContent (VString "development") Example.ids Example.cancelSlot
      props VNull in
  spec_effectiveDescribedBy Example.ids props = VString ""
  ∧ JS.prop content "aria-describedby" = VString "radix-id-0"
  ∧ JS.prop content "aria-describedby"
    ≠ spec_effectiveDescribedBy Example.ids props
  ∧ JS.prop content "aria-labelledby"
    ≠ spec_effectiveLabelledBy Example.ids props
  ∧ JS.prop content "aria-label" ≠ spec_effectiveLabel props.
Proof. vm_compute. repeat split; discriminate. Qed.

(** The two readings of an override agree unless it is falsy without being
    nullish, as the empty string is. *)
Lemma or_nullish (a b : value) :
  JS.truthy a = true ∨ a = VUndefined ∨ a = VNull →
  JS.or a b = JS.nullish a b.
Proof.
  intros [H|[->| ->]]; [|done..]. unfold JS.or. rewrite H. by destruct a.
Qed.

(** With every override absent or a non-empty string, the content renders
    the specification's formulas. *)
Lemma content_matches_spec_formulas
    (NODE_ENV : value) (ctx : AlertDialogContextValue) (cancelRef : loc)
    (props : gmap string value) (forwardedRef : value) :
  (∀ k, k ∈ ["aria-label"; "aria-labelledby"; "aria-describedby"] →
        props !! k = None ∨ ∃ s, s ≠ "" ∧ props !! k = Some (VString s)) →
  let content := AlertDialogContent NODE_ENV ctx cancelRef props forwardedRef in
  JS.prop content "aria-labelledby" = spec_effectiveLabelledBy ctx props
  ∧ JS.prop content "aria-label" = spec_effectiveLabel props
  ∧ JS.prop content "aria-describedby" = spec_effectiveDescribedBy ctx props.
Proof.
  intros Htyped content. subst content.
  assert (Hget : ∀ k,
    k ∈ ["aria-label"; "aria-labelledby"; "aria-describedby"] →
    JS.truthy (JS.get props k) = true ∨ JS.get props k = VUndefined
    ∨ JS.get props k = VNull).
  { intros k Hk. unfold JS.get.
    destruct (Htyped k Hk) as [Hnone|(s & Hnonempty & Hsome)].
    - rewrite Hnone. by right; left.
    - rewrite Hsome. left. cbn [default JS.truthy].
      by apply negb_true_iff, String.eqb_neq. }
  rewrite content_aria_labelledby, content_aria_label, content_aria_describedby.
  unfold spec_effectiveLabelledBy, spec_effectiveLabel,
    spec_effectiveDescribedBy.
  rewrite !or_nullish by (apply Hget; in_keys). done.
Qed.

(** C5: on every render, whatever the overrides (empty strings included),
    the content never has both aria-label and aria-labelledby set: a label
    that is present (truthy) is rendered and leaves aria-labelledby
    undefined, and without one aria-label is undefined. *)
Theorem C5_label_excludes_labelledby
    (NODE_ENV : value) (ctx : AlertDialogContextValue) (cancelRef : loc)
    (props : gmap string value) (forwardedRef : value) :
  let content := AlertDialogContent NODE_ENV ctx cancelRef props forwardedRef in
  JS.is_set (JS.prop content "aria-label")
    && JS.is_set (JS.prop content "aria-labelledby") = false
  ∧ if JS.truthy (JS.get props "aria-label")
    then JS.prop content "aria-label" = JS.get props "aria-label"
         ∧ JS.is_set (JS.prop content "aria-label") = true
         ∧ JS.prop content "aria-labelledby" = VUndefined
    else JS.prop content "aria-label" = VUndefined.
Proof.
  intros content. subst content.
  rewrite content_aria_label, content_aria_labelledby.
  unfold JS.or, JS.cond.
  destruct (JS.truthy (JS.get props "aria-label")) eqn:Hlabel.
  - split; [by rewrite andb_false_r|]. by rewrite truthy_is_set.
  - done.
Qed.

(** C7, as the code has it: the content carries role alertdialog on every
    render in which the consumer's props have no [role] of their own; a
    [role] among the forwarded props comes after the default and replaces
    it. *)
Theorem C7_content_role
    (NODE_ENV : value) (ctx : AlertDialogContextValue) (cancelRef : loc)
    (props : gmap string value) (forwardedRef : value) :
  JS.prop (AlertDialogContent NODE_ENV ctx cancelRef props forwardedRef) "role"
  = default (VString "alertdialog") (props !! "role").
Proof. apply content_role. Qed.

(** C7 fails as stated: a consumer that forwards [role="dialog"] gets a plain
    dialog. *)
Lemma C7_role_overridden_by_consumer :
  let props : gmap string value := {[ "role" := VString "dialog" ]} in
  let content :=
    AlertDialogContent (VString "development") Example.ids Example.cancelSlot
      props VNull in
  JS.prop content "role" = VString "dialog"
  ∧ JS.prop content "role" ≠ VString "alertdialog".
Proof. vm_compute. split; [reflexivity | discriminate]. Qed.

(* ------------------------------------------------------------------------- *)
(** ** The build gate of the dev warnings *)
(* ------------------------------------------------------------------------- *)

(** C3, as the code has it: the dev-warning component is mounted inside the
    content exactly when [NODE_ENV] is ['development']; in particular it is
    never mounted in a production build. *)
Theorem C3_dev_warnings_gate
    (NODE_ENV : value) (ctx : AlertDialogContextValue) (cancelRef : loc)
    (props : gmap string value) (forwardedRef : value) :
  mounts_dev_warnings
    (AlertDialogContent NODE_ENV ctx cancelRef props forwardedRef)
  = JS.strict_eq_string NODE_ENV "development"
  ∧ mounts_dev_warnings
      (AlertDialogContent (VString "production") ctx cancelRef props
         forwardedRef)
    = false.
Proof.
  unfold mounts_dev_warnings. rewrite !content_provider_children.
  split; [|reflexivity].
  cbn [existsb JS.and JS.truthy].
  by destruct (JS.strict_eq_string NODE_ENV "development").
Qed.

(** C3 fails as stated: a test build is not a production build, and the
    component is not mounted in it; the same holds with [NODE_ENV] unset. *)
Lemma C3_not_mounted_in_test_build :
  let content (NODE_ENV : value) :=
    AlertDialogContent NODE_ENV Example.ids Example.cancelSlot ∅ VNull in
  production_build (VString "test") = false
  ∧ mounts_dev_warnings (content (VString "test")) = false
  ∧ production_build VUndefined = false
  ∧ mounts_dev_warnings (content VUndefined) = false.
Proof. vm_compute. by repeat split. Qed.

(* ------------------------------------------------------------------------- *)
(** ** Focus on open *)
(* ------------------------------------------------------------------------- *)

(** C2: the handler the content gives the primitive runs the caller's
    [onOpenAutoFocus] first (when there is one).  With the Cancel element
    [el] in the cancel slot, if the caller's handler left the event
    default-prevented nothing more happens; otherwise the event is
    default-prevented and [el] is focused with [preventScroll: true]. *)
Theorem C2_open_autofocus_composes
    (NODE_ENV : value) (ctx : AlertDialogContextValue) (cancelRef : loc)
    (props : gmap string value) (forwardedRef : value)
    (w : World) (el : Dom.HTMLElement) :
  let handler :=
    onOpenAutoFocus
      (AlertDialogContent NODE_ENV ctx cancelRef props forwardedRef) in
  let w1 := JS.optional_call (JS.get props "onOpenAutoFocus") w in
  refs w1 !! cancelRef = Some el →
  handler w =
    if defaultPrevented w1 then w1
    else {| defaultPrevented := true;
            refs := refs w1;
            focusLog := focusLog w1 ++ [(el, {| Dom.preventScroll := true |})] |}.
Proof.
  intros handler w1 Hcancel. subst handler.
  rewrite content_onOpenAutoFocus. unfold composeEventHandlers.
  fold w1. destruct (defaultPrevented w1); [done|].
  unfold focusCancel. cbn [preventDefault refs]. by rewrite Hcancel.
Qed.

Lemma C2_witness :
  let handler (caller : Handler) :=
    onOpenAutoFocus
      (AlertDialogContent (VString "development") Example.ids
         Example.cancelSlot (Example.handler_props caller) VNull) in
  handler Example.focusConfirm Example.opened_with_cancel
  = {| defaultPrevented := true;
       refs := {[ Example.cancelSlot := Example.cancel ]};
       focusLog := [(Example.confirm, {| Dom.preventScroll := false |});
                    (Example.cancel, {| Dom.preventScroll := true |})] |}
  ∧ handler Example.focusConfirm_preventDefault Example.opened_with_cancel
    = {| defaultPrevented := true;
         refs := {[ Example.cancelSlot := Example.cancel ]};
         focusLog := [(Example.confirm, {| Dom.preventScroll := false |})] |}.
Proof.
  intros handler. split.
  - apply (C2_open_autofocus_composes (VString "development") Example.ids
             Example.cancelSlot (Example.handler_props Example.focusConfirm)
             VNull Example.opened_with_cancel Example.cancel).
    vm_compute; reflexivity.
  - apply (C2_open_autofocus_composes (VString "development") Example.ids
             Example.cancelSlot
             (Example.handler_props Example.focusConfirm_preventDefault)
             VNull Example.opened_with_cancel Example.cancel).
    vm_compute; reflexivity.
Defined.

(** C4, as the code has it: with the cancel slot empty the handler focuses
    nothing, yet it still leaves the event default-prevented, so the
    primitive's own autofocus is suppressed all the same. *)
Theorem C4_no_cancel_registered
    (NODE_ENV : value) (ctx : AlertDialogContextValue) (cancelRef : loc)
    (props : gmap string value) (forwardedRef : value) (w : World) :
  let handler :=
    onOpenAutoFocus
      (AlertDialogContent NODE_ENV ctx cancelRef props forwardedRef) in
  let w1 := JS.optional_call (JS.get props "onOpenAutoFocus") w in
  refs w1 !! cancelRef = None →
  handler w = preventDefault w1
  ∧ focusLog (handler w) = focusLog w1
  ∧ defaultPrevented (handler w) = true.
Proof.
  intros handler w1 Hcancel. subst handler.
  rewrite content_onOpenAutoFocus. unfold composeEventHandlers.
  fold w1. destruct (defaultPrevented w1) eqn:Hprevented.
  - destruct w1 as [p r l]. simpl in Hprevented. by subst p.
  - unfold focusCancel. cbn [preventDefault refs]. by rewrite Hcancel.
Qed.

Lemma C4_witness :
  let handler :=
    onOpenAutoFocus
      (AlertDialogContent (VString "development") Example.ids
         Example.cancelSlot (Example.handler_props Example.focusConfirm)
         VNull) in
  handler Example.opened = preventDefault (Example.focusConfirm Example.opened)
  ∧ focusLog (handler Example.opened)
    = [(Example.confirm, {| Dom.preventScroll := false |})]
  ∧ defaultPrevented (handler Example.opened) = true.
Proof.
  intros handler.
  apply (C4_no_cancel_registered (VString "development") Example.ids
           Example.cancelSlot (Example.handler_props Example.focusConfirm)
           VNull Example.opened).
  vm_compute; reflexivity.
Defined.

(** C4 fails as stated: a content without a Cancel control and without a
    caller handler receives a fresh event, focuses nothing and leaves the
    event default-prevented, so the primitive's autofocus does not run. *)
Lemma C4_autofocus_suppressed_without_cancel :
  let handler :=
    onOpenAutoFocus
      (AlertDialogContent (VString "development") Example.ids
         Example.cancelSlot ∅ VNull) in
  refs Example.opened !! Example.cancelSlot = None
  ∧ defaultPrevented Example.opened = false
  ∧ focusLog (handler Example.opened) = []
  ∧ defaultPrevented (handler Example.opened) ≠ false.
Proof. vm_compute. by repeat split. Qed.

(* ------------------------------------------------------------------------- *)
(** ** The dev-warning check *)
(* ------------------------------------------------------------------------- *)

Lemma truthy_or (a b : value) :
  JS.truthy (JS.or a b) = JS.truthy a || JS.truthy b.
Proof. unfold JS.or. by destruct (JS.truthy a) eqn:Ha. Qed.

Lemma truthy_and_getElementById (document : Dom.Document) (id : option string) :
  JS.truthy
    (JS.and (optional id) (document_getElementById document (optional id)))
  = names_element document id.
Proof.
  destruct id as [s|]; [|done].
  unfold JS.and. cbn [optional JS.truthy names_element].
  destruct (String.eqb_spec s "") as [->|Hne]; [done|].
  cbn [negb document_getElementById].
  by destruct (Dom.getElementById document s).
Qed.

Lemma truthy_optional (label : option string) :
  JS.truthy (optional label) = has_text label.
Proof. by destruct label. Qed.

Lemma warnings_mention :
  mentions "label" LABEL_WARNING = true
  ∧ mentions "description" LABEL_WARNING = false
  ∧ mentions "label" DESC_WARNING = false
  ∧ mentions "description" DESC_WARNING = true.
Proof. vm_compute. by repeat split. Qed.

(** C6: one run of the check completes normally whatever its inputs, and
    adds to the console exactly the label warning when no accessible name
    resolves, followed by the description warning when no description
    resolves.  So one warning mentions "label" if no name resolves and none
    otherwise, one mentions "description" if no description resolves and
    none otherwise, and nothing is warned when both resolve. *)
Theorem C6_dev_warnings_check
    (context : AlertDialogContextValue) (props : AccessibilityDevWarningsProps)
    (document : Dom.Document) (console : list string) :
  let named := name_resolves context props document in
  let described := description_resolves context props document in
  let warnings :=
    ((if named then [] else [LABEL_WARNING])
     ++ (if described then [] else [DESC_WARNING]))%list in
  AccessibilityDevWarnings_effect context props document console
  = (Normal tt, (console ++ warnings)%list)
  ∧ count_mentioning "label" warnings = (if named then 0 else 1)
  ∧ count_mentioning "description" warnings = (if described then 0 else 1)
  ∧ (if named && described then warnings = [] else warnings ≠ []).
Proof.
  intros named described warnings.
  assert (Hlabel :
    JS.truthy
      (JS.or
         (JS.or (optional (ariaLabel props))
            (JS.and (optional (ariaLabelledBy props))
               (document_getElementById document
                  (optional (ariaLabelledBy props)))))
         (JS.and (VString (titleId context))
            (document_getElementById document (VString (titleId context)))))
    = named).
  { pose proof
      (truthy_and_getElementById document (Some (titleId context))) as Htitle.
    cbn [optional] in Htitle.
    by rewrite !truthy_or, truthy_optional, truthy_and_getElementById, Htitle. }
  assert (Hdescription :
    JS.truthy
      (JS.or
         (JS.and (optional (ariaDescribedBy props))
            (document_getElementById document
               (optional (ariaDescribedBy props))))
         (JS.and (VString (descriptionId context))
            (document_getElementById document
               (VString (descriptionId context)))))
    = described).
  { pose proof
      (truthy_and_getElementById document (Some (descriptionId context)))
      as Hdesc.
    cbn [optional] in Hdesc.
    by rewrite truthy_or, truthy_and_getElementById, Hdesc. }
  destruct warnings_mention as (HLl & HLd & HDl & HDd).
  split.
  - unfold AccessibilityDevWarnings_effect. rewrite Hlabel, Hdescription.
    subst warnings. unfold mbind, Eff_bind, when, mret, Eff_ret, console_warn.
    destruct named, described; cbn [negb app];
      by rewrite ?app_nil_r, <-?app_assoc.
  - subst warnings. unfold count_mentioning.
    destruct named, described; cbn [app andb];
      rewrite ?filter_cons, ?filter_nil, ?HLl, ?HLd, ?HDl, ?HDd;
      repeat case_decide; try done.
Qed.

(* ------------------------------------------------------------------------- *)
(** ** The identifiers of the root *)
(* ------------------------------------------------------------------------- *)

Lemma AlertDialog_context props hooks next :
  useAlertDialogContext (AlertDialog props hooks next).1.1
  = Some {| descriptionId := (useId (slot_descriptionId <$> hooks) next).1;
            titleId :=
              (useId (slot_titleId <$> hooks)
                 (useId (slot_descriptionId <$> hooks) next).2).1 |}.
Proof.
  unfold AlertDialog.
  destruct (useId (slot_descriptionId <$> hooks) next) as [d next1].
  cbn [fst snd].
  destruct (useId (slot_titleId <$> hooks) next1) as [t next2].
  cbn [fst snd useAlertDialogContext jsx jsx_props foldl].
  by repeat first
    [ rewrite get_set_eq | rewrite get_set_ne by (intros ?; discriminate) ].
Qed.

Lemma AlertDialog_hooks props hooks next :
  (AlertDialog props hooks next).1.2
  = {| slot_descriptionId := (useId (slot_descriptionId <$> hooks) next).1;
       slot_titleId :=
         (useId (slot_titleId <$> hooks)
            (useId (slot_descriptionId <$> hooks) next).2).1 |}.
Proof.
  unfold AlertDialog.
  destruct (useId (slot_descriptionId <$> hooks) next) as [d next1].
  cbn [fst snd].
  by destruct (useId (slot_titleId <$> hooks) next1) as [t next2].
Qed.

(** Once mounted, every render provides the ids the hook memory holds. *)
Lemma render_ids_mounted hooks next renders :
  Forall
    (eq (Some {| descriptionId := slot_descriptionId hooks;
                 titleId := slot_titleId hooks |}))
    (render_ids (Some hooks) next renders).
Proof.
  revert next. induction renders as [|props renders IH]; intros next.
  - constructor.
  - cbn [render_ids].
    pose proof (AlertDialog_context props (Some hooks) next) as Hctx.
    pose proof (AlertDialog_hooks props (Some hooks) next) as Hhooks.
    destruct (AlertDialog props (Some hooks) next) as [[out hooks'] next'].
    cbn [fst snd fmap option_fmap option_map useId] in Hctx, Hhooks.
    subst hooks'. destruct hooks as [d t]. constructor; [done|]. apply IH.
Qed.

Lemma generated_id_inj (n m : N) :
  "radix-id-" +:+ pretty n = "radix-id-" +:+ pretty m → n = m.
Proof.
  intros H. apply (inj pretty).
  by apply (inj (String.append "radix-id-")) in H.
Qed.

(** C8: the ids an [AlertDialog] provides when it mounts are non-empty and
    distinct from one another, and every later render of the same instance
    provides the same two ids. *)
Theorem C8_ids_nonempty_stable_distinct
    (props : gmap string value) (next : N)
    (rerenders : list (gmap string value)) :
  ∃ ids : AlertDialogContextValue,
    useAlertDialogContext (AlertDialog props None next).1.1 = Some ids
    ∧ titleId ids ≠ ""
    ∧ descriptionId ids ≠ ""
    ∧ titleId ids ≠ descriptionId ids
    ∧ Forall (eq (Some ids)) (render_ids None next (props :: rerenders)).
Proof.
  eexists. split; [apply AlertDialog_context|].
  cbn [fmap option_fmap option_map useId fst snd titleId descriptionId].
  split; [done|]. split; [done|]. split.
  - intros H%generated_id_inj. lia.
  - cbn [render_ids].
    pose proof (AlertDialog_context props None next) as Hctx.
    pose proof (AlertDialog_hooks props None next) as Hhooks.
    destruct (AlertDialog props None next) as [[out hooks'] next'].
    cbn [fst snd fmap option_fmap option_map useId] in Hctx, Hhooks.
    constructor; [done|]. subst hooks'.
    apply (render_ids_mounted
             {| slot_descriptionId := "radix-id-" +:+ pretty next;
                slot_titleId := "radix-id-" +:+ pretty (N.succ next) |}).
Qed.

(* ------------------------------------------------------------------------- *)
(** ** Title and Description *)
(* ------------------------------------------------------------------------- *)

Section Leaves.
Variables (ctx : AlertDialogContextValue).
Variables (props : gmap string value) (forwardedRef : value).

Lemma title_id :
  JS.prop (AlertDialogTitle ctx props forwardedRef) "id"
  = default (VString (titleId ctx)) (props !! "id").
Proof.
  unfold AlertDialogTitle. read_props.
  rewrite lookup_rest_notin by notin_keys. by destruct (props !! "id").
Qed.

Lemma description_id :
  JS.prop (AlertDialogDescription ctx props forwardedRef) "id"
  = default (VString (descriptionId ctx)) (props !! "id").
Proof.
  unfold AlertDialogDescription. read_props.
  rewrite lookup_rest_notin by notin_keys. by destruct (props !! "id").
Qed.

Lemma title_as :
  JS.prop (AlertDialogTitle ctx props forwardedRef) "as"
  = with_default (JS.get props "as") (VString "h2").
Proof. unfold AlertDialogTitle. by read_props. Qed.

Lemma description_as :
  JS.prop (AlertDialogDescription ctx props forwardedRef) "as"
  = with_default (JS.get props "as") (VString "p").
Proof. unfold AlertDialogDescription. by read_props. Qed.

Lemma leaf_passes_through (k : string) (id as_ : value) :
  k ∉ ["id"; "as"; "ref"] →
  JS.prop
    (jsx Primitive
       [Attr "id" id; Spread (JS.rest ["as"] props); Attr "as" as_;
        Attr "ref" forwardedRef]
       None) k
  = JS.get props k.
Proof.
  intros Hk.
  apply not_elem_of_cons in Hk as [Hid Hk].
  apply not_elem_of_cons in Hk as [Has Hk].
  apply not_elem_of_cons in Hk as [Href _].
  cbn [JS.prop jsx jsx_props foldl].
  rewrite !get_set_ne, get_spread by done.
  rewrite lookup_rest_notin
    by (apply not_elem_of_cons; split; [done | apply not_elem_of_nil]).
  rewrite get_set_ne by done.
  unfold JS.get. rewrite lookup_empty. by destruct (props !! k).
Qed.

End Leaves.

(** C9, as the code has it: a Title or Description that is given no [id] of
    its own renders with the shared titleId (descriptionId) as its id; the
    tag is h2 (p) unless [as] overrides it; every other supplied prop is
    passed through; and a content without label overrides then has
    aria-labelledby equal to the Title's id and aria-describedby equal to the
    Description's id. *)
Theorem C9_title_description_linked
    (NODE_ENV : value) (ctx : AlertDialogContextValue) (cancelRef : loc)
    (titleProps descriptionProps contentProps : gmap string value)
    (titleRef descriptionRef contentRef : value) :
  titleProps !! "id" = None →
  descriptionProps !! "id" = None →
  JS.get contentProps "aria-label" = VUndefined →
  JS.get contentProps "aria-labelledby" = VUndefined →
  JS.get contentProps "aria-describedby" = VUndefined →
  let title := AlertDialogTitle ctx titleProps titleRef in
  let description := AlertDialogDescription ctx descriptionProps descriptionRef in
  let content := AlertDialogContent NODE_ENV ctx cancelRef contentProps contentRef in
  JS.prop title "id" = VString (titleId ctx)
  ∧ JS.prop description "id" = VString (descriptionId ctx)
  ∧ JS.prop title "as" =
      (if JS.is_undefined (JS.get titleProps "as") then VString "h2"
       else JS.get titleProps "as")
  ∧ JS.prop description "as" =
      (if JS.is_undefined (JS.get descriptionProps "as") then VString "p"
       else JS.get descriptionProps "as")
  ∧ (∀ k : string, k ∉ ["id"; "as"; "ref"] →
       JS.prop title k = JS.get titleProps k
       ∧ JS.prop description k = JS.get descriptionProps k)
  ∧ JS.prop content "aria-labelledby" = JS.prop title "id"
  ∧ JS.prop content "aria-describedby" = JS.prop description "id".
Proof.
  intros Htitle Hdescription Hlabel Hlabelledby Hdescribedby
    title description content.
  subst title description content.
  rewrite title_id, description_id, title_as, description_as.
  rewrite content_aria_labelledby, content_aria_describedby.
  rewrite Htitle, Hdescription, Hlabel, Hlabelledby, Hdescribedby.
  repeat split; try done.
  - by apply leaf_passes_through.
  - by apply leaf_passes_through.
Qed.

Lemma C9_witness :
  let title := AlertDialogTitle Example.ids Example.title_props VNull in
  let description := AlertDialogDescription Example.ids ∅ VNull in
  let content :=
    AlertDialogContent (VString "development") Example.ids Example.cancelSlot
      ∅ VNull in
  JS.prop title "id" = VString "radix-id-1"
  ∧ JS.prop description "id" = VString "radix-id-0"
  ∧ JS.prop title "as" = VString "h1"
  ∧ JS.prop description "as" = VString "p"
  ∧ (∀ k : string, k ∉ ["id"; "as"; "ref"] →
       JS.prop title k = JS.get Example.title_props k
       ∧ JS.prop description k = JS.get ∅ k)
  ∧ JS.prop content "aria-labelledby" = JS.prop title "id"
  ∧ JS.prop content "aria-describedby" = JS.prop description "id".
Proof.
  intros title description content. subst title description content.
  destruct (C9_title_description_linked (VString "development") Example.ids
              Example.cancelSlot Example.title_props ∅ ∅ VNull VNull VNull)
    as (Htitle & Hdescription & Htag & Hptag & Hrest & Hlabelledby
        & Hdescribedby);
    [vm_compute; reflexivity.. |].
  split; [exact Htitle|]. split; [exact Hdescription|].
  split; [rewrite Htag; vm_compute; reflexivity|].
  split; [rewrite Hptag; vm_compute; reflexivity|].
  split; [exact Hrest|]. split; [exact Hlabelledby | exact Hdescribedby].
Defined.

(** C9 fails as stated: a Title given an [id] renders with that id, not with
    the shared titleId, and the content's aria-labelledby no longer names
    it. *)
Lemma C9_title_id_overridden :
  let title :=
    AlertDialogTitle Example.ids (Example.id_props "my-title") VNull in
  let content :=
    AlertDialogContent (VString "development") Example.ids Example.cancelSlot
      ∅ VNull in
  JS.prop title "id" = VString "my-title"
  ∧ JS.prop title "id" ≠ VString (titleId Example.ids)
  ∧ JS.prop content "aria-labelledby" ≠ JS.prop title "id".
Proof. vm_compute. split; [reflexivity | split; discriminate]. Qed.

(** C10: an [id] the consumer supplies to Title or Description replaces the
    generated one on the rendered element, and when it differs from the
    generated id a content without overrides no longer points at that
    element: its aria-labelledby (aria-describedby) is not the element's
    id. *)
Theorem C10_consumer_id_overrides
    (NODE_ENV : value) (ctx : AlertDialogContextValue) (cancelRef : loc)
    (leafProps contentProps : gmap string value)
    (leafRef contentRef id : value) :
  leafProps !! "id" = Some id →
  JS.get contentProps "aria-label" = VUndefined →
  JS.get contentProps "aria-labelledby" = VUndefined →
  JS.get contentProps "aria-describedby" = VUndefined →
  let title := AlertDialogTitle ctx leafProps leafRef in
  let description := AlertDialogDescription ctx leafProps leafRef in
  let content := AlertDialogContent NODE_ENV ctx cancelRef contentProps contentRef in
  JS.prop title "id" = id
  ∧ JS.prop description "id" = id
  ∧ (id ≠ VString (titleId ctx) →
     JS.prop content "aria-labelledby" ≠ JS.prop title "id")
  ∧ (id ≠ VString (descriptionId ctx) →
     JS.prop content "aria-describedby" ≠ JS.prop description "id").
Proof.
  intros Hid Hlabel Hlabelledby Hdescribedby title description content.
  subst title description content.
  rewrite title_id, description_id.
  rewrite content_aria_labelledby, content_aria_describedby.
  rewrite Hid, Hlabel, Hlabelledby, Hdescribedby.
  repeat split; try done; intros Hne Heq; by apply Hne.
Qed.

Lemma C10_witness :
  let title := AlertDialogTitle Example.ids (Example.id_props "my-id") VNull in
  let description :=
    AlertDialogDescription Example.ids (Example.id_props "my-id") VNull in
  let content :=
    AlertDialogContent (VString "development") Example.ids Example.cancelSlot
      ∅ VNull in
  JS.prop title "id" = VString "my-id"
  ∧ JS.prop description "id" = VString "my-id"
  ∧ JS.prop content "aria-labelledby" ≠ JS.prop title "id"
  ∧ JS.prop content "aria-describedby" ≠ JS.prop description "id".
Proof.
  intros title description content. subst title description content.
  destruct (C10_consumer_id_overrides (VString "development") Example.ids
              Example.cancelSlot (Example.id_props "my-id") ∅ VNull VNull
              (VString "my-id"))
    as (Htitle & Hdescription & Hlabelledby & Hdescribedby);
    [vm_compute; reflexivity.. |].
  split; [exact Htitle|]. split; [exact Hdescription|]. split.
  - apply Hlabelledby. discriminate.
  - apply Hdescribedby. discriminate.
Defined.

(* ========================================================================= *)
(** * Further properties of the components *)
(* ========================================================================= *)

(* ------------------------------------------------------------------------- *)
(** ** AlertDialog and AlertDialogContent as wrappers *)
(* ------------------------------------------------------------------------- *)

(** X1: the root wraps one [DialogPrimitive.Root] in the identity provider and
    hands it every prop of the consumer, [children] included, unchanged. *)
Theorem AlertDialog_forwards_props
    (props : gmap string value) (hooks : option AlertDialogHooks) (next : N) :
  let provider := (AlertDialog props hooks next).1.1 in
  let root := JS.prop provider "children" in
  JS.element_type provider = Some AlertDialogProvider
  ∧ JS.element_type root = Some DialogPrimitive_Root
  ∧ ∀ k : string, JS.prop root k = JS.get props k.
Proof.
  unfold AlertDialog.
  destruct (useId (slot_descriptionId <$> hooks) next) as [d next1].
  destruct (useId (slot_titleId <$> hooks) next1) as [t next2].
  cbn [fst snd]. split; [done|]. read_props.
  cbn [JS.prop jsx jsx_props foldl]. split; [done|].
  intros k. rewrite get_spread. unfold JS.get. rewrite lookup_empty.
  by destruct (props !! k).
Qed.

(** X2: every prop of the consumer other than the seven names the content
    handles itself reaches the primitive unchanged. *)
Theorem content_passes_other_props
    (NODE_ENV : value) (ctx : AlertDialogContextValue) (cancelRef : loc)
    (props : gmap string value) (forwardedRef : value) (k : string) :
  k ∉ ["role"; "aria-describedby"; "aria-labelledby"; "aria-label";
       "children"; "ref"; "onOpenAutoFocus"] →
  JS.prop (AlertDialogContent NODE_ENV ctx cancelRef props forwardedRef) k
  = JS.get props k.
Proof.
  intros Hk.
  apply not_elem_of_cons in Hk as [Hrole Hk].
  apply not_elem_of_cons in Hk as [Hdescribedby Hk].
  apply not_elem_of_cons in Hk as [Hlabelledby Hk].
  apply not_elem_of_cons in Hk as [Hlabel Hk].
  apply not_elem_of_cons in Hk as [Hchildren Hk].
  apply not_elem_of_cons in Hk as [Href Hk].
  apply not_elem_of_cons in Hk as [Hfocus _].
  unfold AlertDialogContent. cbn [JS.prop jsx jsx_props foldl].
  rewrite !get_set_ne, get_spread by done.
  rewrite lookup_rest_notin
    by (repeat (apply not_elem_of_cons; split; [done|]);
        apply not_elem_of_nil).
  rewrite !get_set_ne by done.
  unfold JS.get. rewrite lookup_empty. by destruct (props !! k).
Qed.

Lemma content_passes_other_props_witness :
  JS.prop
    (AlertDialogContent (VString "production") Example.ids Example.cancelSlot
       Example.title_props VNull) "className"
  = VString "title".
Proof.
  rewrite (content_passes_other_props (VString "production") Example.ids
             Example.cancelSlot Example.title_props VNull "className").
  - vm_compute; reflexivity.
  - notin_keys.
Defined.

(** X3: the build only decides the dev-warning slot: whatever [NODE_ENV] is, the
    content hands the primitive the same value for every prop other than
    [children], the provider carries the same cancel cell, and the children
    after the dev-warning slot are the same. *)
Theorem content_same_in_every_build
    (NODE_ENV NODE_ENV' : value) (ctx : AlertDialogContextValue)
    (cancelRef : loc) (props : gmap string value) (forwardedRef : value)
    (k : string) :
  k ≠ "children" →
  let content := AlertDialogContent NODE_ENV ctx cancelRef props forwardedRef in
  let content' :=
    AlertDialogContent NODE_ENV' ctx cancelRef props forwardedRef in
  JS.prop content k = JS.prop content' k
  ∧ JS.prop (JS.prop content "children") "cancelRef"
    = JS.prop (JS.prop content' "children") "cancelRef"
  ∧ tail (provider_children content) = tail (provider_children content').
Proof.
  intros Hk content content'. subst content content'.
  rewrite !content_provider_children. split; [|split; [|done]].
  - unfold AlertDialogContent. cbn [JS.prop jsx].
    by rewrite !(get_set_ne "children") by done.
  - unfold AlertDialogContent. by read_props.
Qed.

Lemma content_same_in_every_build_witness :
  let content (NODE_ENV : value) :=
    AlertDialogContent NODE_ENV Example.ids Example.cancelSlot
      Example.title_props VNull in
  JS.prop (content (VString "development")) "aria-labelledby"
  = JS.prop (content (VString "production")) "aria-labelledby"
  ∧ JS.prop (JS.prop (content (VString "development")) "children") "cancelRef"
    = JS.prop (JS.prop (content (VString "production")) "children") "cancelRef"
  ∧ tail (provider_children (content (VString "development")))
    = tail (provider_children (content (VString "production"))).
Proof.
  intros content.
  apply (content_same_in_every_build (VString "development")
           (VString "production") Example.ids Example.cancelSlot
           Example.title_props VNull "aria-labelledby").
  discriminate.
Defined.

(** X4: on every render exactly one of aria-label and aria-labelledby is set on
    the content, and aria-describedby is set. *)
Theorem content_exactly_one_name
    (NODE_ENV : value) (ctx : AlertDialogContextValue) (cancelRef : loc)
    (props : gmap string value) (forwardedRef : value) :
  let content := AlertDialogContent NODE_ENV ctx cancelRef props forwardedRef in
  xorb (JS.is_set (JS.prop content "aria-label"))
       (JS.is_set (JS.prop content "aria-labelledby")) = true
  ∧ JS.is_set (JS.prop content "aria-describedby") = true.
Proof.
  intros content. subst content.
  rewrite content_aria_label, content_aria_labelledby,
    content_aria_describedby.
  unfold JS.or, JS.cond. split.
  - destruct (JS.truthy (JS.get props "aria-label")) eqn:Hlabel.
    + by rewrite (truthy_is_set _ Hlabel).
    + destruct (JS.truthy (JS.get props "aria-labelledby")) eqn:Hby;
        [by rewrite (truthy_is_set _ Hby) | done].
  - destruct (JS.truthy (JS.get props "aria-describedby")) eqn:Hby;
      [by rewrite (truthy_is_set _ Hby) | done].
Qed.

(** X5: with non-empty generated ids the content never renders an empty name or
    description: exactly one of aria-label and aria-labelledby is truthy and
    aria-describedby is truthy, whatever the overrides are, empty strings
    included. *)
Theorem content_name_never_empty
    (NODE_ENV : value) (ctx : AlertDialogContextValue) (cancelRef : loc)
    (props : gmap string value) (forwardedRef : value) :
  titleId ctx ≠ "" →
  descriptionId ctx ≠ "" →
  let content := AlertDialogContent NODE_ENV ctx cancelRef props forwardedRef in
  xorb (JS.truthy (JS.prop content "aria-label"))
       (JS.truthy (JS.prop content "aria-labelledby")) = true
  ∧ JS.truthy (JS.prop content "aria-describedby") = true.
Proof.
  intros Htitle Hdescription content. subst content.
  rewrite content_aria_label, content_aria_labelledby,
    content_aria_describedby.
  assert (JS.truthy (VString (titleId ctx)) = true) as Ht
    by by apply negb_true_iff, String.eqb_neq.
  assert (JS.truthy (VString (descriptionId ctx)) = true) as Hd
    by by apply negb_true_iff, String.eqb_neq.
  unfold JS.or, JS.cond. split.
  - destruct (JS.truthy (JS.get props "aria-label")) eqn:Hlabel.
    + by rewrite Hlabel.
    + destruct (JS.truthy (JS.get props "aria-labelledby")) eqn:Hby;
        [by rewrite Hby | by rewrite Ht].
  - by destruct (JS.truthy (JS.get props "aria-describedby")) eqn:Hby.
Qed.

Lemma content_name_never_empty_witness :
  let props : gmap string value :=
    aria_overrides
      {| ariaLabel := Some ""; ariaLabelledBy := Some "";
         ariaDescribedBy := Some "" |} ∅ in
  let content :=
    AlertDialogContent (VString "production") Example.ids Example.cancelSlot
      props VNull in
  xorb (JS.truthy (JS.prop content "aria-label"))
       (JS.truthy (JS.prop content "aria-labelledby")) = true
  ∧ JS.truthy (JS.prop content "aria-describedby") = true.
Proof.
  intros props content.
  apply (content_name_never_empty (VString "production") Example.ids
           Example.cancelSlot props VNull); discriminate.
Defined.

(** X6: resolving the naming attributes is idempotent: a content given the
    attributes another render produced as its overrides renders the same
    three attributes. *)
Theorem content_aria_idempotent
    (NODE_ENV : value) (ctx : AlertDialogContextValue) (cancelRef : loc)
    (props : gmap string value) (forwardedRef : value) :
  let content := AlertDialogContent NODE_ENV ctx cancelRef props forwardedRef in
  let again :=
    AlertDialogContent NODE_ENV ctx cancelRef
      (rendered_overrides content props) forwardedRef in
  JS.prop again "aria-label" = JS.prop content "aria-label"
  ∧ JS.prop again "aria-labelledby" = JS.prop content "aria-labelledby"
  ∧ JS.prop again "aria-describedby" = JS.prop content "aria-describedby".
Proof.
  intros content again. subst again.
  rewrite content_aria_label, content_aria_labelledby,
    content_aria_describedby.
  unfold rendered_overrides.
  repeat first
    [ rewrite get_set_eq | rewrite get_set_ne by (intros ?; discriminate) ].
  subst content.
  rewrite content_aria_label, content_aria_labelledby,
    content_aria_describedby.
  unfold JS.or, JS.cond.
  destruct (JS.truthy (JS.get props "aria-label")) eqn:Hlabel;
    destruct (JS.truthy (JS.get props "aria-labelledby")) eqn:Hby;
    destruct (JS.truthy (JS.get props "aria-describedby")) eqn:Hdesc;
    destruct (JS.truthy (VString (titleId ctx))) eqn:Ht;
    destruct (JS.truthy (VString (descriptionId ctx))) eqn:Hd;
    cbn [JS.truthy];
    rewrite ?Hlabel, ?Hby, ?Hdesc, ?Ht, ?Hd; cbn [JS.truthy];
    rewrite ?Hlabel, ?Hby, ?Hdesc, ?Ht, ?Hd; done.
Qed.

(* ------------------------------------------------------------------------- *)
(** ** What the dev-warning check sees and says *)
(* ------------------------------------------------------------------------- *)

Lemma effect_run (context : AlertDialogContextValue)
    (props : AccessibilityDevWarningsProps) (document : Dom.Document)
    (console : list string) :
  AccessibilityDevWarnings_effect context props document console
  = (Normal tt,
     (console
      ++ (if name_resolves context props document then []
          else [LABEL_WARNING])
      ++ (if description_resolves context props document then []
          else [DESC_WARNING]))%list).
Proof.
  unfold AccessibilityDevWarnings_effect, name_resolves, description_resolves.
  pose proof
    (truthy_and_getElementById document (Some (titleId context))) as Htitle.
  pose proof
    (truthy_and_getElementById document (Some (descriptionId context)))
    as Hdesc.
  cbn [optional] in Htitle, Hdesc.
  rewrite !truthy_or, truthy_optional, !truthy_and_getElementById.
  rewrite Htitle, Hdesc.
  unfold mbind, Eff_bind, when, mret, Eff_ret, console_warn.
  destruct (has_text (ariaLabel props)
            || names_element document (ariaLabelledBy props)
            || names_element document (Some (titleId context)));
    destruct (names_element document (ariaDescribedBy props)
              || names_element document (Some (descriptionId context)));
    cbn [negb app]; by rewrite ?app_nil_r, <-?app_assoc.
Qed.

Lemma emitted_eq (context : AlertDialogContextValue)
    (props : AccessibilityDevWarningsProps) (document : Dom.Document) :
  emitted context props document
  = ((if name_resolves context props document then [] else [LABEL_WARNING])
     ++ (if description_resolves context props document then []
         else [DESC_WARNING]))%list.
Proof. unfold emitted. by rewrite effect_run. Qed.


Lemma warnings_distinct : LABEL_WARNING ≠ DESC_WARNING.
Proof.
  destruct warnings_mention as (Hl & _ & Hd & _).
  intros Heq. rewrite Heq in Hl. congruence.
Qed.

Lemma label_warned (context : AlertDialogContextValue)
    (props : AccessibilityDevWarningsProps) (document : Dom.Document) :
  LABEL_WARNING ∈ emitted context props document
  ↔ name_resolves context props document = false.
Proof.
  rewrite emitted_eq. pose proof warnings_distinct as Hne.
  destruct (name_resolves context props document),
    (description_resolves context props document); cbn [app];
    rewrite ?elem_of_cons, ?elem_of_nil; intuition congruence.
Qed.

Lemma description_warned (context : AlertDialogContextValue)
    (props : AccessibilityDevWarningsProps) (document : Dom.Document) :
  DESC_WARNING ∈ emitted context props document
  ↔ description_resolves context props document = false.
Proof.
  rewrite emitted_eq. pose proof warnings_distinct as Hne.
  destruct (name_resolves context props document),
    (description_resolves context props document); cbn [app];
    rewrite ?elem_of_cons, ?elem_of_nil; intuition congruence.
Qed.

Lemma names_rendered_string (document : Dom.Document) (s : string) :
  names_rendered_element document (VString s)
  = names_element document (Some s).
Proof.
  unfold names_rendered_element, names_element, document_getElementById.
  destruct (Dom.getElementById document s) as [e|] eqn:He; cbn [JS.truthy].
  - symmetry. by apply bool_decide_eq_true.
  - symmetry. apply bool_decide_eq_false. by intros [e He'].
Qed.


Lemma as_optional_optional (o : option string) : as_optional (optional o) = o.
Proof. by destruct o. Qed.

Section Overrides.
Variables (o : AccessibilityDevWarningsProps) (others : gmap string value).

Lemma get_overrides_label :
  JS.get (aria_overrides o others) "aria-label" = optional (ariaLabel o).
Proof. unfold aria_overrides. by read_props. Qed.

Lemma get_overrides_labelledby :
  JS.get (aria_overrides o others) "aria-labelledby"
  = optional (ariaLabelledBy o).
Proof. unfold aria_overrides. by read_props. Qed.

Lemma get_overrides_describedby :
  JS.get (aria_overrides o others) "aria-describedby"
  = optional (ariaDescribedBy o).
Proof. unfold aria_overrides. by read_props. Qed.

End Overrides.

(** X7: in a development build the check runs on exactly the three overrides the
    consumer gave the content, as given and not as the content resolved
    them. *)
Theorem dev_warnings_see_raw_overrides
    (ctx : AlertDialogContextValue) (cancelRef : loc)
    (o : AccessibilityDevWarningsProps) (others : gmap string value)
    (forwardedRef : value) :
  ∃ e : value,
    mounted_dev_warnings
      (AlertDialogContent (VString "development") ctx cancelRef
         (aria_overrides o others) forwardedRef) = Some e
    ∧ dev_warnings_props e = o.
Proof.
  unfold mounted_dev_warnings. rewrite content_provider_children.
  change (JS.and (VBool (JS.strict_eq_string (VString "development")
                           "development")) ?e) with e.
  eexists. split; [reflexivity|].
  unfold dev_warnings_props. read_props.
  rewrite get_overrides_label, get_overrides_labelledby,
    get_overrides_describedby, !as_optional_optional.
  by destruct o.
Qed.


(** X9: the check is weaker than the rendering: an aria-labelledby override that
    names no rendered element is still what the content renders, yet a
    rendered Title is enough for the check to stay silent about the label;
    the same holds for aria-describedby and a rendered Description. *)
Theorem dangling_override_not_reported
    (NODE_ENV : value) (ctx : AlertDialogContextValue) (cancelRef : loc)
    (o : AccessibilityDevWarningsProps) (others : gmap string value)
    (forwardedRef : value) (document : Dom.Document) (id : string) :
  id ≠ "" →
  Dom.getElementById document id = None →
  let content :=
    AlertDialogContent NODE_ENV ctx cancelRef (aria_overrides o others)
      forwardedRef in
  (has_text (ariaLabel o) = false →
   ariaLabelledBy o = Some id →
   is_Some (Dom.getElementById document (titleId ctx)) →
   (LABEL_WARNING ∉ emitted ctx o document)
   ∧ JS.prop content "aria-labelledby" = VString id
   ∧ names_rendered_element document (JS.prop content "aria-labelledby")
     = false)
  ∧ (ariaDescribedBy o = Some id →
     is_Some (Dom.getElementById document (descriptionId ctx)) →
     (DESC_WARNING ∉ emitted ctx o document)
     ∧ JS.prop content "aria-describedby" = VString id
     ∧ names_rendered_element document (JS.prop content "aria-describedby")
       = false).
Proof.
  intros Hid Hnone content. subst content.
  assert (JS.truthy (VString id) = true) as Htruthy
    by by apply negb_true_iff, String.eqb_neq.
  assert (names_rendered_element document (VString id) = false) as Hdangling.
  { rewrite names_rendered_string. apply bool_decide_eq_false.
    rewrite Hnone. by intros [e He]. }
  rewrite content_aria_labelledby, content_aria_describedby.
  rewrite get_overrides_label, get_overrides_labelledby,
    get_overrides_describedby.
  unfold JS.or, JS.cond. rewrite truthy_optional. split.
  - intros Hlabel Hby Htitle. rewrite Hlabel, Hby. cbn [optional].
    rewrite Htruthy. split; [|done].
    rewrite label_warned. unfold name_resolves, names_element at 2.
    rewrite (bool_decide_eq_true_2 _ Htitle). by rewrite orb_true_r.
  - intros Hby Hdesc. rewrite Hby. cbn [optional].
    rewrite Htruthy. split; [|done].
    rewrite description_warned. unfold description_resolves, names_element at 2.
    rewrite (bool_decide_eq_true_2 _ Hdesc). by rewrite orb_true_r.
Qed.


Lemma dangling_override_not_reported_witness :
  let content :=
    AlertDialogContent (VString "development") Example.ids Example.cancelSlot
      (aria_overrides Page.dangling ∅) VNull in
  ((LABEL_WARNING ∉ emitted Example.ids Page.dangling Page.complete)
   ∧ JS.prop content "aria-labelledby" = VString "missing"
   ∧ names_rendered_element Page.complete (JS.prop content "aria-labelledby")
     = false)
  ∧ ((DESC_WARNING ∉ emitted Example.ids Page.dangling Page.complete)
     ∧ JS.prop content "aria-describedby" = VString "missing"
     ∧ names_rendered_element Page.complete
         (JS.prop content "aria-describedby") = false).
Proof.
  intros content.
  destruct (dangling_override_not_reported (VString "development")
              Example.ids Example.cancelSlot Page.dangling ∅ VNull
              Page.complete "missing")
    as [Hlabel Hdescription].
  - discriminate.
  - vm_compute; reflexivity.
  - split.
    + apply Hlabel.
      * vm_compute; reflexivity.
      * vm_compute; reflexivity.
      * vm_compute. by eexists.
    + apply Hdescription.
      * vm_compute; reflexivity.
      * vm_compute. by eexists.
Defined.

(** X10: rendering more can only silence the check: if every id that names an
    element of one document also names an element of another, the warnings
    on the second are among the warnings on the first, in the same order. *)
Theorem more_elements_fewer_warnings
    (context : AlertDialogContextValue) (props : AccessibilityDevWarningsProps)
    (document document' : Dom.Document) :
  (∀ id : string,
     is_Some (Dom.getElementById document id) →
     is_Some (Dom.getElementById document' id)) →
  emitted context props document' `sublist_of` emitted context props document.
Proof.
  intros Hmore.
  assert (Hnames : ∀ id,
    names_element document id = true → names_element document' id = true).
  { intros [s|]; [|done]. cbn [names_element].
    rewrite !bool_decide_eq_true. apply Hmore. }
  assert (Hname :
    name_resolves context props document = true →
    name_resolves context props document' = true).
  { unfold name_resolves. rewrite !orb_true_iff.
    intros [[H|H]|H]; auto. }
  assert (Hdesc :
    description_resolves context props document = true →
    description_resolves context props document' = true).
  { unfold description_resolves. rewrite !orb_true_iff.
    intros [H|H]; auto. }
  rewrite !emitted_eq.
  destruct (name_resolves context props document);
    destruct (description_resolves context props document);
    rewrite ?Hname, ?Hdesc by done; cbn [app];
    destruct (name_resolves context props document');
    destruct (description_resolves context props document'); cbn [app];
    repeat first
      [ apply sublist_nil_l | apply sublist_skip | apply sublist_cons ].
Qed.

Lemma more_elements_fewer_warnings_witness :
  emitted Example.ids Page.no_overrides Page.complete
  `sublist_of` emitted Example.ids Page.no_overrides Page.bare.
Proof.
  apply more_elements_fewer_warnings.
  intros id [e He]. unfold Dom.getElementById in *.
  destruct (decide (id = "")); [discriminate|].
  unfold Page.bare, Page.complete in *. cbn [find] in *.
  repeat case_bool_decide; try discriminate; by eexists.
Defined.

(** X11: with nothing rendered the description warning is always given, no prop
    can replace a rendered description; the label warning is given unless
    aria-label is a non-empty string. *)
Theorem nothing_rendered_always_warns
    (context : AlertDialogContextValue)
    (props : AccessibilityDevWarningsProps) (console : list string) :
  AccessibilityDevWarnings_effect context props [] console
  = (Normal tt,
     (console
      ++ (if has_text (ariaLabel props) then [] else [LABEL_WARNING])
      ++ [DESC_WARNING])%list).
Proof.
  rewrite effect_run.
  assert (Hnone : ∀ id, names_element [] id = false).
  { intros [s|]; [|done]. apply bool_decide_eq_false.
    unfold Dom.getElementById. case_decide; by intros [e He]. }
  unfold name_resolves, description_resolves. rewrite !Hnone.
  by rewrite !orb_false_r.
Qed.


(* ------------------------------------------------------------------------- *)
(** ** The Cancel control and the focus on open *)
(* ------------------------------------------------------------------------- *)

(** X13: the Cancel control renders the primitive's Close with every prop of the
    consumer unchanged; only [ref] is its own: the composition of the
    forwarded ref and the content's cancel cell, whatever the props hold
    under that name. *)
Theorem cancel_passes_props
    (cctx : AlertDialogContentContextValue) (props : gmap string value)
    (forwardedRef : value) (k : string) :
  k ≠ "ref" →
  let cancel := AlertDialogCancel cctx props forwardedRef in
  JS.element_type cancel = Some DialogPrimitive_Close
  ∧ JS.prop cancel k = JS.get props k
  ∧ JS.prop cancel "ref"
    = useComposedRefs [forwardedRef; VRef (cancelRef cctx)].
Proof.
  intros Hk cancel. subst cancel. unfold AlertDialogCancel.
  split; [done|]. cbn [JS.prop jsx jsx_props foldl]. split.
  - rewrite get_set_ne, get_spread by done.
    unfold JS.get. rewrite lookup_empty. by destruct (props !! k).
  - by rewrite get_set_eq.
Qed.

Lemma cancel_passes_props_witness :
  let cancel :=
    AlertDialogCancel {| cancelRef := Example.cancelSlot |}
      Example.title_props VNull in
  JS.element_type cancel = Some DialogPrimitive_Close
  ∧ JS.prop cancel "className" = JS.get Example.title_props "className"
  ∧ JS.prop cancel "ref" = useComposedRefs [VNull; VRef Example.cancelSlot].
Proof.
  intros cancel.
  apply (cancel_passes_props {| cancelRef := Example.cancelSlot |}
           Example.title_props VNull "className").
  discriminate.
Defined.

Lemma mount_cancel_refs (c l : loc) (props : gmap string value)
    (el : Dom.HTMLElement) (w : World) :
  mount_cancel (AlertDialogCancel {| cancelRef := c |} props (VRef l)) el w
  = {| defaultPrevented := defaultPrevented w;
       refs := <[c := el]> (<[l := el]> (refs w));
       focusLog := focusLog w |}.
Proof.
  unfold mount_cancel, AlertDialogCancel. cbn [JS.prop jsx jsx_props foldl].
  by rewrite get_set_eq.
Qed.

(** X14: a mounted Cancel control is what opening focuses.  Mounting it as [el]
    writes [el] to the content's cancel cell and to the consumer's ref
    object, leaves every other cell, the event and the focus log alone, and
    the content's handler, with no caller handler, then focuses [el] and
    nothing else. *)
Theorem mounted_cancel_is_focused
    (NODE_ENV : value) (ctx : AlertDialogContextValue) (c l : loc)
    (cancelProps contentProps : gmap string value) (contentRef : value)
    (el : Dom.HTMLElement) (w : World) :
  JS.get contentProps "onOpenAutoFocus" = VUndefined →
  defaultPrevented w = false →
  let cancel := AlertDialogCancel {| cancelRef := c |} cancelProps (VRef l) in
  let mounted := mount_cancel cancel el w in
  let handler :=
    onOpenAutoFocus (AlertDialogContent NODE_ENV ctx c contentProps contentRef)
  in
  refs mounted !! c = Some el
  ∧ refs mounted !! l = Some el
  ∧ (∀ r : loc, r ∉ [c; l] → refs mounted !! r = refs w !! r)
  ∧ defaultPrevented mounted = false
  ∧ focusLog mounted = focusLog w
  ∧ focusLog (handler mounted)
    = (focusLog w ++ [(el, {| Dom.preventScroll := true |})])%list.
Proof.
  intros Hcaller Hfresh cancel mounted handler.
  subst cancel mounted handler.
  rewrite content_onOpenAutoFocus, Hcaller, mount_cancel_refs.
  unfold composeEventHandlers, JS.optional_call, focusCancel.
  cbn [defaultPrevented refs focusLog preventDefault].
  rewrite Hfresh, lookup_insert_eq. cbn [focus focusLog].
  split; [done|]. split.
  { destruct (decide (c = l)) as [->|Hne];
      [apply lookup_insert_eq | by rewrite lookup_insert_ne, lookup_insert_eq]. }
  split; [|done].
  intros r Hr. apply not_elem_of_cons in Hr as [Hc Hr].
  apply not_elem_of_cons in Hr as [Hl _].
  by rewrite !lookup_insert_ne.
Qed.

Lemma mounted_cancel_is_focused_witness :
  let cancel :=
    AlertDialogCancel {| cancelRef := Example.cancelSlot |} ∅
      (VRef 2%positive) in
  let mounted := mount_cancel cancel Example.cancel Example.opened in
  let handler :=
    onOpenAutoFocus
      (AlertDialogContent (VString "production") Example.ids
         Example.cancelSlot ∅ VNull) in
  refs mounted !! Example.cancelSlot = Some Example.cancel
  ∧ refs mounted !! 2%positive = Some Example.cancel
  ∧ (∀ r : loc, r ∉ [Example.cancelSlot; 2%positive] →
       refs mounted !! r = refs Example.opened !! r)
  ∧ defaultPrevented mounted = false
  ∧ focusLog mounted = focusLog Example.opened
  ∧ focusLog (handler mounted)
    = (focusLog Example.opened
       ++ [(Example.cancel, {| Dom.preventScroll := true |})])%list.
Proof.
  intros cancel mounted handler.
  apply (mounted_cancel_is_focused (VString "production") Example.ids
           Example.cancelSlot 2%positive ∅ ∅ VNull Example.cancel
           Example.opened); vm_compute; reflexivity.
Defined.

(** X15: with two Cancel controls in one content, the one mounted last holds the
    cancel cell, and opening focuses it and not the first. *)
Theorem last_mounted_cancel_wins
    (NODE_ENV : value) (ctx : AlertDialogContextValue) (c l l' : loc)
    (props props' contentProps : gmap string value) (contentRef : value)
    (el el' : Dom.HTMLElement) (w : World) :
  JS.get contentProps "onOpenAutoFocus" = VUndefined →
  defaultPrevented w = false →
  let first := AlertDialogCancel {| cancelRef := c |} props (VRef l) in
  let second := AlertDialogCancel {| cancelRef := c |} props' (VRef l') in
  let mounted := mount_cancel second el' (mount_cancel first el w) in
  let handler :=
    onOpenAutoFocus (AlertDialogContent NODE_ENV ctx c contentProps contentRef)
  in
  refs mounted !! c = Some el'
  ∧ focusLog (handler mounted)
    = (focusLog w ++ [(el', {| Dom.preventScroll := true |})])%list.
Proof.
  intros Hcaller Hfresh first second mounted handler.
  subst first second mounted handler.
  rewrite content_onOpenAutoFocus, Hcaller, !mount_cancel_refs.
  unfold composeEventHandlers, JS.optional_call, focusCancel.
  cbn [defaultPrevented refs focusLog preventDefault].
  by rewrite Hfresh, lookup_insert_eq.
Qed.

Lemma last_mounted_cancel_wins_witness :
  let first :=
    AlertDialogCancel {| cancelRef := Example.cancelSlot |} ∅
      (VRef 2%positive) in
  let second :=
    AlertDialogCancel {| cancelRef := Example.cancelSlot |} ∅
      (VRef 3%positive) in
  let mounted :=
    mount_cancel second Example.confirm
      (mount_cancel first Example.cancel Example.opened) in
  let handler :=
    onOpenAutoFocus
      (AlertDialogContent (VString "production") Example.ids
         Example.cancelSlot ∅ VNull) in
  refs mounted !! Example.cancelSlot = Some Example.confirm
  ∧ focusLog (handler mounted)
    = (focusLog Example.opened
       ++ [(Example.confirm, {| Dom.preventScroll := true |})])%list.
Proof.
  intros first second mounted handler.
  apply (last_mounted_cancel_wins (VString "production") Example.ids
           Example.cancelSlot 2%positive 3%positive ∅ ∅ ∅ VNull
           Example.cancel Example.confirm Example.opened);
    vm_compute; reflexivity.
Defined.

(** X16: dialogs do not interfere: with no caller handler, a Cancel control of
    another content (another cell) registering changes nothing in what this
    content's handler does; registering before or after the handler runs
    gives the same world. *)
Theorem other_cancel_does_not_interfere
    (NODE_ENV : value) (ctx : AlertDialogContextValue) (cancelRef other : loc)
    (props : gmap string value) (forwardedRef : value)
    (el : Dom.HTMLElement) (w : World) :
  other ≠ cancelRef →
  JS.get props "onOpenAutoFocus" = VUndefined →
  let handler :=
    onOpenAutoFocus
      (AlertDialogContent NODE_ENV ctx cancelRef props forwardedRef) in
  handler (attach_ref (VRef other) el w)
  = attach_ref (VRef other) el (handler w)
  ∧ focusLog (handler (attach_ref (VRef other) el w)) = focusLog (handler w).
Proof.
  intros Hother Hcaller handler. subst handler.
  rewrite content_onOpenAutoFocus, Hcaller.
  unfold composeEventHandlers, JS.optional_call, focusCancel.
  destruct w as [prevented cells log].
  cbn [attach_ref defaultPrevented refs focusLog preventDefault].
  rewrite lookup_insert_ne by done.
  destruct prevented; [done|].
  by destruct (cells !! cancelRef).
Qed.

Lemma other_cancel_does_not_interfere_witness :
  let handler :=
    onOpenAutoFocus
      (AlertDialogContent (VString "production") Example.ids
         Example.cancelSlot ∅ VNull) in
  handler (attach_ref (VRef 2%positive) Example.confirm
             Example.opened_with_cancel)
  = attach_ref (VRef 2%positive) Example.confirm
      (handler Example.opened_with_cancel)
  ∧ focusLog
      (handler (attach_ref (VRef 2%positive) Example.confirm
                  Example.opened_with_cancel))
    = focusLog (handler Example.opened_with_cancel).
Proof.
  intros handler.
  apply (other_cancel_does_not_interfere (VString "production") Example.ids
           Example.cancelSlot 2%positive ∅ VNull Example.confirm
           Example.opened_with_cancel).
  - discriminate.
  - vm_compute; reflexivity.
Defined.
